(** * Booking lifecycle of the rental application (app.py)

    A shallow embedding of the Flask routes that make up the booking
    engine: [book_property], [owner_approve_request],
    [owner_reject_request] and [mark_notification_read], together with
    the [send_email] helper, over an explicit model of the four MongoDB
    collections. *)

From Stdlib Require Import List String Bool Arith ZArith Lia.
From Stdlib Require Import Floats.PrimFloat.
Import ListNotations.
Local Open Scope string_scope.
Local Open Scope list_scope.

Set Implicit Arguments.

(** ** Documents *)

(** A bson [ObjectId]; the driver draws them from a process-wide generator. *)
Definition oid := nat.

(** A [datetime.utcnow()] reading. *)
Definition datetime := nat.

(** The three strings ever stored under a booking's ["status"] key. *)
Inductive status : Type := PENDING | APPROVED | REJECTED.

Definition status_eqb (a b : status) : bool :=
  match a, b with
  | PENDING, PENDING | APPROVED, APPROVED | REJECTED, REJECTED => true
  | _, _ => false
  end.

Definition status_str (s : status) : string :=
  match s with
  | PENDING => "PENDING"
  | APPROVED => "APPROVED"
  | REJECTED => "REJECTED"
  end.

(** A status counts as terminal once the owner has decided. *)
Definition terminal (s : status) : Prop := s = APPROVED \/ s = REJECTED.

(** users_col documents, as [register] inserts them. *)
Record user : Type := mkUser {
  u_name : string;
  u_email : string;
  u_password : string;
  u_role : string
}.

(** An element of a property's ["reviews"] list, as [add_review] pushes it. *)
Record review : Type := mkReview {
  r_by : string;
  r_email : string;
  r_rating : float;
  r_comment : string;
  r_created_at : datetime
}.

(** props_col documents, as [owner_add] inserts them; ["booked"] and
    ["booked_by"] are absent until an approval sets them. *)
Record property : Type := mkProperty {
  p_id : oid;
  p_title : string;
  p_description : string;
  p_location : string;
  p_latitude : option float;
  p_longitude : option float;
  p_price : float;
  p_rooms : Z;
  p_owner_email : string;
  p_images : list string;
  p_reviews : list review;
  p_fake : bool;
  p_created_at : datetime;
  p_booked : option bool;
  p_booked_by : option string
}.

(** bookings_col documents, as [book_property] inserts them. *)
Record booking : Type := mkBooking {
  b_id : oid;
  b_property_id : oid;
  b_tenant_email : string;
  b_tenant_name : string;
  b_created_at : datetime;
  b_status : status
}.

(** notifications_col documents. [book_property] writes neither
    ["tenant_email"] nor ["booking_id"]; the owner's decisions write both. *)
Record notification : Type := mkNotification {
  n_id : oid;
  n_owner_email : string;
  n_tenant_email : option string;
  n_property_id : oid;
  n_booking_id : option oid;
  n_message : string;
  n_timestamp : datetime;
  n_read : bool
}.

(** The database [rental_db]: each collection in natural (insertion) order. *)
Record db : Type := mkDb {
  users_col : list user;
  props_col : list property;
  bookings_col : list booking;
  notifications_col : list notification
}.

(** An [EmailMessage] handed to the SMTP server. *)
Record email : Type := mkEmail {
  e_from : string;
  e_to : string;
  e_subject : string;
  e_body : string
}.

(** Everything a request can read or change: the database, the ObjectId
    generator, the console and the mail that left through SMTP. *)
Record world : Type := mkWorld {
  w_db : db;
  w_next_oid : oid;
  w_stdout : list string;
  w_outbox : list email
}.

(** ** Collection primitives *)

Section Collection.
Variable doc : Type.

(** [find_one]: the first document matching the filter. *)
Definition find_one (q : doc -> bool) (c : list doc) : option doc :=
  find q c.

(** [update_one]: rewrites the first matching document only. *)
Fixpoint update_one (q : doc -> bool) (f : doc -> doc) (c : list doc) : list doc :=
  match c with
  | [] => []
  | d :: c' => if q d then f d :: c' else d :: update_one q f c'
  end.

(** [update_many]: rewrites every matching document. *)
Definition update_many (q : doc -> bool) (f : doc -> doc) (c : list doc) : list doc :=
  map (fun d => if q d then f d else d) c.

(** [insert_one] appends; the caller supplies the generated [_id]. *)
Definition insert_doc (d : doc) (c : list doc) : list doc := c ++ [d].
End Collection.

(** ["$set"] updates used by the routes. *)
Definition set_status (s : status) (b : booking) : booking :=
  mkBooking (b_id b) (b_property_id b) (b_tenant_email b) (b_tenant_name b)
            (b_created_at b) s.

Definition set_booked (flag : bool) (by_ : string) (p : property) : property :=
  mkProperty (p_id p) (p_title p) (p_description p) (p_location p)
             (p_latitude p) (p_longitude p) (p_price p) (p_rooms p)
             (p_owner_email p) (p_images p) (p_reviews p) (p_fake p)
             (p_created_at p) (Some flag) (Some by_).

Definition set_read (flag : bool) (n : notification) : notification :=
  mkNotification (n_id n) (n_owner_email n) (n_tenant_email n) (n_property_id n)
                 (n_booking_id n) (n_message n) (n_timestamp n) flag.

(** ** Requests as computations over the world *)

(** The Python exceptions that can occur on the modelled paths. *)
Inductive exn : Type :=
| InvalidId (s : string)
| ValueError (s : string)
| SMTPException (s : string).

Definition str_exn (e : exn) : string :=
  match e with
  | InvalidId s => "'" ++ s ++ "' is not a valid ObjectId"
  | ValueError s => "invalid literal for int() with base 10: '" ++ s ++ "'"
  | SMTPException s => s
  end.

Inductive outcome (A : Type) : Type :=
| Val (a : A)
| Raised (e : exn).
Arguments Raised {A} e.

(** A computation returns or raises, and leaves a world behind either way:
    writes done before an exception stay done. *)
Definition M (A : Type) : Type := world -> outcome A * world.

Definition ret {A} (a : A) : M A := fun w => (Val a, w).

Definition bind {A B} (c : M A) (k : A -> M B) : M B :=
  fun w => match c w with
           | (Val a, w') => k a w'
           | (Raised e, w') => (Raised e, w')
           end.

Definition raise {A} (e : exn) : M A := fun w => (Raised e, w).

(** [try: c except Exception as e: h e] *)
Definition try_except {A} (c : M A) (h : exn -> M A) : M A :=
  fun w => match c w with
           | (Val a, w') => (Val a, w')
           | (Raised e, w') => h e w'
           end.

Declare Scope monad_scope.
Delimit Scope monad_scope with monad.
Notation "x <- c1 ;; c2" := (bind c1 (fun x => c2))
  (at level 61, c1 at next level, right associativity) : monad_scope.
Notation "c1 ;; c2" := (bind c1 (fun _ => c2))
  (at level 61, right associativity) : monad_scope.
Local Open Scope monad_scope.

Definition get_db : M db := fun w => (Val (w_db w), w).

Definition modify_db (f : db -> db) : M unit :=
  fun w => (Val tt, mkWorld (f (w_db w)) (w_next_oid w) (w_stdout w) (w_outbox w)).

(** The driver's [ObjectId()] for a document inserted without [_id]. *)
Definition fresh_oid : M oid :=
  fun w => (Val (w_next_oid w),
            mkWorld (w_db w) (S (w_next_oid w)) (w_stdout w) (w_outbox w)).

Definition print (line : string) : M unit :=
  fun w => (Val tt, mkWorld (w_db w) (w_next_oid w) (w_stdout w ++ [line]) (w_outbox w)).

Definition deliver (m : email) : M unit :=
  fun w => (Val tt, mkWorld (w_db w) (w_next_oid w) (w_stdout w) (w_outbox w ++ [m])).

Definition with_bookings (f : list booking -> list booking) (d : db) : db :=
  mkDb (users_col d) (props_col d) (f (bookings_col d)) (notifications_col d).

Definition with_props (f : list property -> list property) (d : db) : db :=
  mkDb (users_col d) (f (props_col d)) (bookings_col d) (notifications_col d).

Definition with_notifications (f : list notification -> list notification) (d : db) : db :=
  mkDb (users_col d) (props_col d) (bookings_col d) (f (notifications_col d)).

(** ** The e-mail helper *)

(** What [os.environ] holds under SMTP_PORT: nothing (unset or empty), a
    string [int()] accepts, or one it rejects. *)
Inductive port_setting : Type :=
| PortAbsent
| PortInt (n : Z)
| PortNotInt (s : string).

(** The process environment read by [send_email], and the behaviour of the
    SMTP conversation: [smtp_session ssl m] is [None] when the server took
    the message and [Some e] when connecting, logging in or sending raised. *)
Record mail_env : Type := mkMailEnv {
  SMTP_HOST : option string;
  SMTP_PORT : port_setting;
  SMTP_USER : option string;
  SMTP_PASS : option string;
  EMAIL_FROM : option string;
  smtp_session : bool -> email -> option exn
}.

(** Python truthiness of an optional string. *)
Definition truthy (s : option string) : bool :=
  match s with
  | None => false
  | Some s' => negb (s' =? "")
  end.

Definition or_else (s : option string) (dflt : string) : string :=
  if truthy s then match s with Some s' => s' | None => dflt end else dflt.

Definition send_email (env : mail_env) (to_email subject body : string) : M unit :=
  smtp_port <- match SMTP_PORT env with
               | PortAbsent => ret None
               | PortInt n => ret (Some n)
               | PortNotInt s => raise (ValueError s)
               end ;;
  let email_from := match EMAIL_FROM env with
                    | Some f => f
                    | None => or_else (SMTP_USER env) "no-reply@example.com"
                    end in
  let port_ok := match smtp_port with
                 | Some n => negb (n =? 0)%Z
                 | None => false
                 end in
  if negb (truthy (SMTP_HOST env)) || negb port_ok
     || negb (truthy (SMTP_USER env)) || negb (truthy (SMTP_PASS env))
  then
    print "---- Email fallback (SMTP not configured) ----" ;;
    print ("To: " ++ to_email) ;;
    print ("From: " ++ email_from) ;;
    print ("Subject: " ++ subject) ;;
    print "Body:" ;;
    print body ;;
    print "---- End email ----"
  else
    let msg := mkEmail email_from to_email subject body in
    let ssl := match smtp_port with Some n => (n =? 465)%Z | None => false end in
    try_except
      (match smtp_session env ssl msg with
       | None => deliver msg
       | Some e => raise e
       end)
      (fun e =>
         print ("Failed to send email: " ++ str_exn e) ;;
         print "Email contents were:" ;;
         print ("To: " ++ to_email ++ "
Subject: " ++ subject ++ "
" ++ body)).

(** ** The HTTP boundary *)

(** The Flask session cookie. *)
Record session : Type := mkSession {
  s_user_email : option string;
  s_role : option string
}.

Definition is_logged_in (s : session) : bool :=
  match s_user_email s with Some _ => true | None => false end.

Definition role_is (r : string) (s : session) : bool :=
  match s_role s with Some r' => r' =? r | None => false end.

(** A path segment meant to be an ObjectId: either the hexadecimal form of
    one, or a string that [ObjectId()] rejects with [InvalidId]. *)
Inductive url_param : Type :=
| OidStr (o : oid)
| BadStr (s : string).

Definition ObjectId (s : url_param) : M oid :=
  match s with
  | OidStr o => ret o
  | BadStr s' => raise (InvalidId s')
  end.

Inductive endpoint : Type :=
| Login
| OwnerDashboard
| TenantDashboard
| PropertyDetails (property_id : url_param)
| OwnerRequests (property_id : url_param)
| Notifications.

(** What the caller sees: the flashed (message, category) pairs and the
    redirect target. *)
Record response : Type := mkResponse {
  flashed : list (string * string);
  location : endpoint
}.

Definition redirect (target : endpoint) : M response :=
  ret (mkResponse [] target).

Definition flash_redirect (msg cat : string) (target : endpoint) : M response :=
  ret (mkResponse [(msg, cat)] target).

(** ** The booking routes *)

(** POST /book/<property_id>. The two clock readings are the two
    [datetime.utcnow()] calls, for the booking and for the notification. *)
Definition book_property (env : mail_env) (now_booking now_notif : datetime)
    (sess : session) (property_id : url_param) : M response :=
  match s_user_email sess with
  | None => redirect Login
  | Some me =>
    if negb (role_is "tenant" sess) then redirect Login else
    (* verify property exists *)
    found <- try_except
               (pid <- ObjectId property_id ;;
                d <- get_db ;;
                ret (match find_one (fun p => (p_id p =? pid)%nat) (props_col d) with
                     | Some p => Some (pid, p)
                     | None => None
                     end))
               (fun _ => ret None) ;;
    match found with
    | None => flash_redirect "Property not found." "danger" TenantDashboard
    | Some (pid, prop) =>
      d <- get_db ;;
      let tenant := find_one (fun u => u_email u =? me) (users_col d) in
      let tenant_name := match tenant with Some t => u_name t | None => me end in
      (* create booking with status PENDING *)
      bid <- fresh_oid ;;
      modify_db (with_bookings
        (insert_doc (mkBooking bid pid me tenant_name now_booking PENDING))) ;;
      (* create a notification for the owner *)
      nid <- fresh_oid ;;
      modify_db (with_notifications
        (insert_doc (mkNotification nid (p_owner_email prop) None pid None
           ("New booking request from " ++ tenant_name ++ " (" ++ me
              ++ ") for '" ++ p_title prop ++ "'")
           now_notif false))) ;;
      (* Send email to owner (non-blocking best-effort) *)
      d' <- get_db ;;
      match find_one (fun u => u_email u =? p_owner_email prop) (users_col d') with
      | Some owner =>
        if negb (u_email owner =? "") then
          try_except
            (send_email env (u_email owner)
               ("New booking request for '" ++ p_title prop ++ "'")
               ("Hello " ++ u_name owner ++ ",

You have a new booking request from " ++ tenant_name ++ " (" ++ me
                  ++ ") for your property '" ++ p_title prop ++ "'.

Log in to the dashboard to approve or reject the request.

Thanks,
Rental App"))
            (fun e => print ("Email error (owner notify): " ++ str_exn e))
        else ret tt
      | None => ret tt
      end ;;
      flash_redirect "Booking request sent. The owner will review it." "success"
        (PropertyDetails property_id)
    end
  end.

(** The filter of the auto-reject [update_many]. *)
Definition other_pending (b : booking) (c : booking) : bool :=
  (b_property_id c =? b_property_id b)%nat && status_eqb (b_status c) PENDING
  && negb (b_id c =? b_id b)%nat.

(** The filter of the exclusivity check. *)
Definition approved_for (pid : oid) (c : booking) : bool :=
  (b_property_id c =? pid)%nat && status_eqb (b_status c) APPROVED.

(** POST /owner/approve/<booking_id> *)
Definition owner_approve_request (env : mail_env) (now : datetime)
    (sess : session) (booking_id : url_param) : M response :=
  match s_user_email sess with
  | None => redirect Login
  | Some me =>
    if negb (role_is "owner" sess) then redirect Login else
    bid <- ObjectId booking_id ;;
    d <- get_db ;;
    match find_one (fun b => (b_id b =? bid)%nat) (bookings_col d) with
    | None => flash_redirect "Booking not found." "danger" OwnerDashboard
    | Some booking =>
      (* verify owner owns the property *)
      match find_one (fun p => (p_id p =? b_property_id booking)%nat
                               && (p_owner_email p =? me)) (props_col d) with
      | None => flash_redirect "You are not authorized to approve this booking."
                  "danger" OwnerDashboard
      | Some prop =>
        (* check if already an approved booking exists *)
        match find_one (approved_for (b_property_id booking)) (bookings_col d) with
        | Some _ =>
          flash_redirect "This property is already booked by someone else."
            "warning" (OwnerRequests (OidStr (b_property_id booking)))
        | None =>
          (* Approve this booking *)
          modify_db (with_bookings
            (update_one (fun b => (b_id b =? b_id booking)%nat) (set_status APPROVED))) ;;
          (* Mark property as booked (simple flag) *)
          modify_db (with_props
            (update_one (fun p => (p_id p =? b_property_id booking)%nat)
                        (set_booked true (b_tenant_email booking)))) ;;
          (* Auto-reject all other pending bookings for the same property *)
          modify_db (with_bookings
            (update_many (other_pending booking) (set_status REJECTED))) ;;
          (* Notify tenant (in-app) *)
          nid <- fresh_oid ;;
          modify_db (with_notifications
            (insert_doc (mkNotification nid me (Some (b_tenant_email booking))
               (b_property_id booking) (Some (b_id booking))
               ("Your booking for '" ++ p_title prop
                  ++ "' has been APPROVED by the owner.")
               now false))) ;;
          (* Send email to tenant *)
          try_except
            (send_email env (b_tenant_email booking)
               ("Your booking for '" ++ p_title prop ++ "' is APPROVED")
               ("Hello " ++ b_tenant_name booking ++ ",

Your booking for the property '" ++ p_title prop
                  ++ "' has been APPROVED by the owner (" ++ me ++ ").

Please contact the owner to finalize details.

Thanks,
Rental App"))
            (fun e => print ("Email error (tenant notify approve): " ++ str_exn e)) ;;
          flash_redirect
            "Booking approved. Other pending requests (if any) were rejected."
            "success" (OwnerRequests (OidStr (b_property_id booking)))
        end
      end
    end
  end.

(** POST /owner/reject/<booking_id> *)
Definition owner_reject_request (env : mail_env) (now : datetime)
    (sess : session) (booking_id : url_param) : M response :=
  match s_user_email sess with
  | None => redirect Login
  | Some me =>
    if negb (role_is "owner" sess) then redirect Login else
    bid <- ObjectId booking_id ;;
    d <- get_db ;;
    match find_one (fun b => (b_id b =? bid)%nat) (bookings_col d) with
    | None => flash_redirect "Booking not found." "danger" OwnerDashboard
    | Some booking =>
      (* verify owner owns the property *)
      match find_one (fun p => (p_id p =? b_property_id booking)%nat
                               && (p_owner_email p =? me)) (props_col d) with
      | None => flash_redirect "You are not authorized to reject this booking."
                  "danger" OwnerDashboard
      | Some prop =>
        modify_db (with_bookings
          (update_one (fun b => (b_id b =? b_id booking)%nat) (set_status REJECTED))) ;;
        (* Notify tenant (in-app) *)
        nid <- fresh_oid ;;
        modify_db (with_notifications
          (insert_doc (mkNotification nid me (Some (b_tenant_email booking))
             (b_property_id booking) (Some (b_id booking))
             ("Your booking for '" ++ p_title prop
                ++ "' has been REJECTED by the owner.")
             now false))) ;;
        (* Send email to tenant *)
        try_except
          (send_email env (b_tenant_email booking)
             ("Your booking for '" ++ p_title prop ++ "' was REJECTED")
             ("Hello " ++ b_tenant_name booking ++ ",

Your booking for the property '" ++ p_title prop
                ++ "' has been rejected by the owner (" ++ me ++ ").

You can try other listings.

Thanks,
Rental App"))
          (fun e => print ("Email error (tenant notify reject): " ++ str_exn e)) ;;
        flash_redirect "Booking rejected." "info"
          (OwnerRequests (OidStr (b_property_id booking)))
      end
    end
  end.

(** POST /notifications/read/<notif_id> *)
Definition mark_notification_read (sess : session) (notif_id : url_param)
    : M response :=
  if negb (is_logged_in sess) then redirect Login else
  try_except
    (nid <- ObjectId notif_id ;;
     modify_db (with_notifications
       (update_one (fun n => (n_id n =? nid)%nat) (set_read true))))
    (fun _ => ret tt) ;;
  redirect Notifications.

(** ** Observations used by the statements *)

(** The status stored for a booking id, read the way [find_one] reads it. *)
Definition status_of (bid : oid) (w : world) : option status :=
  option_map b_status
    (find_one (fun b => (b_id b =? bid)%nat) (bookings_col (w_db w))).

(** How many bookings of a property are APPROVED. *)
Definition approved_count (pid : oid) (bs : list booking) : nat :=
  List.length (filter (approved_for pid) bs).

(** Every field of a property except ["booked"] and ["booked_by"]. *)
Definition listing_fields (p : property) :=
  (p_id p, p_title p, p_description p, p_location p, p_latitude p,
   p_longitude p, p_price p, p_rooms p, p_owner_email p, p_images p,
   p_reviews p, p_fake p, p_created_at p).

(** Who sees a notification: the filter of the /notifications page. *)
Definition shown_to (who : string) (n : notification) : bool :=
  (n_owner_email n =? who)
  || match n_tenant_email n with Some t => t =? who | None => false end.

(** The responses that report success. *)
Definition request_sent (property_id : url_param) : response :=
  mkResponse [("Booking request sent. The owner will review it.", "success")]
             (PropertyDetails property_id).

Definition approved_ok (pid : oid) : response :=
  mkResponse
    [("Booking approved. Other pending requests (if any) were rejected.",
      "success")]
    (OwnerRequests (OidStr pid)).

Definition rejected_ok (pid : oid) : response :=
  mkResponse [("Booking rejected.", "info")] (OwnerRequests (OidStr pid)).

(** The refusals. *)
Definition already_booked (pid : oid) : response :=
  mkResponse [("This property is already booked by someone else.", "warning")]
             (OwnerRequests (OidStr pid)).

Definition not_authorized (verb : string) : response :=
  mkResponse
    [(("You are not authorized to " ++ verb ++ " this booking.")%string, "danger")]
             OwnerDashboard.

(** A caller-facing booking operation with all its inputs. *)
Inductive call : Type :=
| RequestBooking (env : mail_env) (now_booking now_notif : datetime)
                 (sess : session) (property_id : url_param)
| ApproveBooking (env : mail_env) (now : datetime)
                 (sess : session) (booking_id : url_param)
| RejectBooking (env : mail_env) (now : datetime)
                (sess : session) (booking_id : url_param).

Definition exec (c : call) (w : world) : world :=
  match c with
  | RequestBooking env t1 t2 sess pid => snd (book_property env t1 t2 sess pid w)
  | ApproveBooking env t sess bid => snd (owner_approve_request env t sess bid w)
  | RejectBooking env t sess bid => snd (owner_reject_request env t sess bid w)
  end.

(** Requests served one after the other. *)
Definition exec_all (cs : list call) (w : world) : world :=
  fold_left (fun w' c => exec c w') cs w.

(** ** Vocabulary of the statements *)

(** Two worlds with the same database and the same ObjectId generator. *)
Definition same_store (w w' : world) : Prop :=
  w_db w' = w_db w /\ w_next_oid w' = w_next_oid w.

(** The lookups the owner routes start with. *)
Definition booking_with (bid : oid) (w : world) : option booking :=
  find_one (fun b => (b_id b =? bid)%nat) (bookings_col (w_db w)).

Definition owned_property (me : string) (pid : oid) (w : world) : option property :=
  find_one (fun p => (p_id p =? pid)%nat && (p_owner_email p =? me))
           (props_col (w_db w)).

Definition approved_booking (pid : oid) (w : world) : option booking :=
  find_one (approved_for pid) (bookings_col (w_db w)).

Definition is_owner_session (me : string) (sess : session) : Prop :=
  s_user_email sess = Some me /\ role_is "owner" sess = true.

Definition is_tenant_session (me : string) (sess : session) : Prop :=
  s_user_email sess = Some me /\ role_is "tenant" sess = true.

(** The store after a committed approval of [b] by [me]. *)
Definition approval (me : string) (now : datetime) (b : booking) (p : property)
    (w w' : world) : Prop :=
  w_db w' =
    mkDb (users_col (w_db w))
         (update_one (fun q => (p_id q =? b_property_id b)%nat)
                     (set_booked true (b_tenant_email b)) (props_col (w_db w)))
         (update_many (other_pending b) (set_status REJECTED)
            (update_one (fun c => (b_id c =? b_id b)%nat) (set_status APPROVED)
                        (bookings_col (w_db w))))
         (notifications_col (w_db w) ++
            [mkNotification (w_next_oid w) me (Some (b_tenant_email b))
               (b_property_id b) (Some (b_id b))
               ("Your booking for '" ++ p_title p
                  ++ "' has been APPROVED by the owner.")
               now false])
  /\ w_next_oid w' = S (w_next_oid w).

(** The store after a committed rejection of [b] by [me]. *)
Definition rejection (me : string) (now : datetime) (b : booking) (p : property)
    (w w' : world) : Prop :=
  w_db w' =
    mkDb (users_col (w_db w))
         (props_col (w_db w))
         (update_one (fun c => (b_id c =? b_id b)%nat) (set_status REJECTED)
                     (bookings_col (w_db w)))
         (notifications_col (w_db w) ++
            [mkNotification (w_next_oid w) me (Some (b_tenant_email b))
               (b_property_id b) (Some (b_id b))
               ("Your booking for '" ++ p_title p
                  ++ "' has been REJECTED by the owner.")
               now false])
  /\ w_next_oid w' = S (w_next_oid w).

(** The name [book_property] stores with the request. *)
Definition tenant_name_of (me : string) (w : world) : string :=
  match find_one (fun u => u_email u =? me) (users_col (w_db w)) with
  | Some t => u_name t
  | None => me
  end.

(** The store after an accepted booking request by [me] for [prop]. *)
Definition request (me : string) (now_booking now_notif : datetime)
    (prop : property) (w w' : world) : Prop :=
  w_db w' =
    mkDb (users_col (w_db w))
         (props_col (w_db w))
         (bookings_col (w_db w) ++
            [mkBooking (w_next_oid w) (p_id prop) me (tenant_name_of me w)
                       now_booking PENDING])
         (notifications_col (w_db w) ++
            [mkNotification (S (w_next_oid w)) (p_owner_email prop) None
               (p_id prop) None
               ("New booking request from " ++ tenant_name_of me w ++ " (" ++ me
                  ++ ") for '" ++ p_title prop ++ "'")
               now_notif false])
  /\ w_next_oid w' = S (S (w_next_oid w)).

(** The lookup [book_property] starts with, and its refusal. *)
Definition property_with (pid : oid) (w : world) : option property :=
  find_one (fun p => (p_id p =? pid)%nat) (props_col (w_db w)).

Definition property_not_found : response :=
  mkResponse [("Property not found.", "danger")] TenantDashboard.

(** What a caller and the store can tell of a finished request: the
    response (or the unhandled exception), the database and the ObjectId
    generator. The console and the outbox are left out. *)
Definition observable {A : Type} (r : outcome A * world) : outcome A * db * oid :=
  (fst r, w_db (snd r), w_next_oid (snd r)).

(** ** A running scenario

    One owner lists a flat, two tenants ask for it, the owner decides. *)

Module Scenario.

Definition owner_email := "olga@example.com".
Definition other_owner_email := "oskar@example.com".
Definition tenant1_email := "tara@example.com".
Definition tenant2_email := "tom@example.com".

Definition users : list user :=
  [ mkUser "Olga" owner_email "pbkdf2:olga" "owner";
    mkUser "Oskar" other_owner_email "pbkdf2:oskar" "owner";
    mkUser "Tara" tenant1_email "pbkdf2:tara" "tenant";
    mkUser "Tom" tenant2_email "pbkdf2:tom" "tenant" ].

Definition flat : property :=
  mkProperty 1 "Sample Flat 101" "Two rooms near the park"
             "Park Street, Kolkata" None None 12000.5%float 2%Z owner_email
             ["a1_front.jpg"] [] false 50 None None.

Definition olga := mkSession (Some owner_email) (Some "owner").
Definition oskar := mkSession (Some other_owner_email) (Some "owner").
Definition tara := mkSession (Some tenant1_email) (Some "tenant").
Definition tom := mkSession (Some tenant2_email) (Some "tenant").

(** SMTP not configured: [send_email] prints the message. *)
Definition no_smtp : mail_env :=
  mkMailEnv None PortAbsent None None None (fun _ _ => None).

(** SMTP configured and accepting mail. *)
Definition smtp_up : mail_env :=
  mkMailEnv (Some "smtp.example.com") (PortInt 465) (Some "app") (Some "secret")
            None (fun _ _ => None).

(** SMTP configured, the server refuses the connection. *)
Definition smtp_down : mail_env :=
  mkMailEnv (Some "smtp.example.com") (PortInt 587) (Some "app") (Some "secret")
            None (fun _ _ => Some (SMTPException "Connection refused")).

(** SMTP_PORT is not a number: [int()] raises before anything is sent. *)
Definition smtp_bad_port : mail_env :=
  mkMailEnv (Some "smtp.example.com") (PortNotInt "smtp") (Some "app")
            (Some "secret") None (fun _ _ => None).

(** The flat is listed; nobody has asked for it yet. *)
Definition listed : world :=
  mkWorld (mkDb users [flat] [] []) 10 [] [].

(** Tara asks (booking 10, notification 11). *)
Definition one_request : world :=
  exec (RequestBooking no_smtp 100 100 tara (OidStr 1)) listed.

(** Tom asks too (booking 12, notification 13). *)
Definition two_requests : world :=
  exec (RequestBooking smtp_down 110 111 tom (OidStr 1)) one_request.

(** Olga approves Tara's request; Tom's is rejected with it. *)
Definition tara_approved : world :=
  exec (ApproveBooking smtp_up 120 olga (OidStr 10)) two_requests.

(** Olga instead rejects Tara's request; Tom's stays PENDING. *)
Definition tara_rejected : world :=
  exec (RejectBooking no_smtp 120 olga (OidStr 10)) two_requests.

(** The calls of a busy afternoon. *)
Definition afternoon : list call :=
  [ RequestBooking no_smtp 100 100 tara (OidStr 1);
    RequestBooking smtp_down 110 111 tom (OidStr 1);
    ApproveBooking smtp_up 120 olga (OidStr 10);
    ApproveBooking smtp_bad_port 130 olga (OidStr 12);
    RejectBooking no_smtp 140 olga (OidStr 10);
    ApproveBooking no_smtp 150 olga (OidStr 12);
    ApproveBooking no_smtp 160 olga (OidStr 10) ].

End Scenario.

(** ** Facts about the collection primitives *)

Section CollectionFacts.
Local Open Scope nat_scope.
Variable doc : Type.
Variable key : doc -> nat.
Variable f : doc -> doc.
Hypothesis f_key : forall d, key (f d) = key d.

Lemma update_one_split (q : doc -> bool) (c : list doc) (d : doc) :
  find_one q c = Some d ->
  exists l1 l2, c = l1 ++ d :: l2 /\ update_one q f c = l1 ++ f d :: l2.
Proof.
  unfold find_one. induction c as [|x c IH]; simpl; [discriminate|].
  destruct (q x) eqn:Q.
  - intros [= ->]. now exists [], c.
  - intros H. destruct (IH H) as (l1 & l2 & -> & E).
    exists (x :: l1), l2. simpl. now rewrite E.
Qed.

Lemma find_update_one_same (k : nat) (c : list doc) :
  find_one (fun d => key d =? k) (update_one (fun d => key d =? k) f c)
  = option_map f (find_one (fun d => key d =? k) c).
Proof.
  unfold find_one. induction c as [|d c IH]; simpl; [reflexivity|].
  destruct (key d =? k) eqn:E; simpl.
  - now rewrite f_key, E.
  - now rewrite E.
Qed.

Lemma find_update_one_other (k k' : nat) (c : list doc) :
  k <> k' ->
  find_one (fun d => key d =? k') (update_one (fun d => key d =? k) f c)
  = find_one (fun d => key d =? k') c.
Proof.
  intros Hk. unfold find_one. induction c as [|d c IH]; simpl; [reflexivity|].
  destruct (key d =? k) eqn:E; simpl.
  - rewrite f_key. apply Nat.eqb_eq in E.
    assert ((key d =? k') = false) as -> by (apply Nat.eqb_neq; lia).
    reflexivity.
  - now rewrite IH.
Qed.

Lemma find_update_many (q : doc -> bool) (k : nat) (c : list doc) :
  find_one (fun d => key d =? k) (update_many q f c)
  = option_map (fun d => if q d then f d else d)
               (find_one (fun d => key d =? k) c).
Proof.
  unfold find_one, update_many. induction c as [|d c IH]; simpl; [reflexivity|].
  assert (key (if q d then f d else d) = key d) as ->
    by (destruct (q d); [apply f_key | reflexivity]).
  destruct (key d =? k); [reflexivity | exact IH].
Qed.

Lemma find_one_In (q : doc -> bool) (c : list doc) (d : doc) :
  find_one q c = Some d -> In d c /\ q d = true.
Proof. apply find_some. Qed.

Lemma find_one_none (q : doc -> bool) (c : list doc) :
  find_one q c = None <-> (forall d, In d c -> q d = false).
Proof.
  split; [apply find_none|].
  unfold find_one. induction c as [|x c IH]; simpl; [reflexivity|].
  intros H. rewrite (H x (or_introl eq_refl)). apply IH.
  intros d Hd. apply H. now right.
Qed.
End CollectionFacts.

Unset Implicit Arguments.

(** ** Facts about the e-mail helper *)

Lemma same_store_trans (w1 w2 w3 : world) :
  same_store w1 w2 -> same_store w2 w3 -> same_store w1 w3.
Proof. unfold same_store. intros [A B] [C D]. split; congruence. Qed.

Lemma print_store (line : string) (w : world) :
  fst (print line w) = Val tt /\ same_store w (snd (print line w)).
Proof. now repeat split. Qed.

(** [send_email] touches the console and the outbox only. *)
Lemma send_email_store (env : mail_env) (to_email subject body : string)
    (w : world) :
  same_store w (snd (send_email env to_email subject body w)).
Proof.
  unfold send_email, bind, try_except, raise, ret, print, deliver, same_store.
  destruct (SMTP_PORT env) as [|n|s]; simpl; auto.
  - destruct (_ || _); simpl; auto.
    destruct (smtp_session env _ _); simpl; auto.
  - destruct (_ || _); simpl; auto.
    destruct (smtp_session env _ _); simpl; auto.
Qed.

(** The guarded call every route makes: whatever the transport does, the
    call returns normally and the store is as before. *)
Lemma guarded_send (env : mail_env) (to_email subject body pre : string)
    (w : world) :
  exists w',
    try_except (send_email env to_email subject body)
               (fun e => print (pre ++ str_exn e)) w = (Val tt, w')
    /\ same_store w w'.
Proof.
  pose proof (send_email_store env to_email subject body w) as Hs.
  unfold try_except.
  destruct (send_email env to_email subject body w) as [[[]|e] w1] eqn:E;
    simpl in Hs.
  - now exists w1.
  - exists (snd (print (pre ++ str_exn e) w1)). split; [reflexivity|].
    eapply same_store_trans; [exact Hs | apply print_store].
Qed.

Arguments send_email : simpl never.
Arguments try_except : simpl never.

(** ** What each route does, case by case *)

Ltac run_route :=
  cbv beta iota delta [bind ret get_db modify_db fresh_oid flash_redirect
                       redirect ObjectId negb raise].

Ltac mail_step w1 Hdb Hoid :=
  match goal with
  | |- context [try_except (send_email ?e ?a ?s ?bd)
                           (fun x => print (?pre ++ str_exn x)) ?w0] =>
    let E := fresh "E" in
    destruct (guarded_send e a s bd pre w0) as (w1 & E & Hdb & Hoid);
    rewrite E; cbv beta iota;
    cbn [w_db w_next_oid w_stdout w_outbox] in Hdb, Hoid
  end.

Lemma approve_commits env now sess me bid b p w :
  is_owner_session me sess ->
  booking_with bid w = Some b ->
  owned_property me (b_property_id b) w = Some p ->
  approved_booking (b_property_id b) w = None ->
  exists w',
    owner_approve_request env now sess (OidStr bid) w
      = (Val (approved_ok (b_property_id b)), w')
    /\ approval me now b p w w'.
Proof.
  unfold booking_with, owned_property, approved_booking.
  intros [Hme Hrole] Hb Hp Ha.
  unfold owner_approve_request. rewrite Hme, Hrole. run_route.
  rewrite Hb. cbv beta iota. rewrite Hp. cbv beta iota.
  rewrite Ha. cbv beta iota. mail_step w1 Hdb Hoid.
  exists w1. split; [reflexivity|].
  split; [rewrite Hdb | rewrite Hoid]; reflexivity.
Qed.

Lemma reject_commits env now sess me bid b p w :
  is_owner_session me sess ->
  booking_with bid w = Some b ->
  owned_property me (b_property_id b) w = Some p ->
  exists w',
    owner_reject_request env now sess (OidStr bid) w
      = (Val (rejected_ok (b_property_id b)), w')
    /\ rejection me now b p w w'.
Proof.
  unfold booking_with, owned_property.
  intros [Hme Hrole] Hb Hp.
  unfold owner_reject_request. rewrite Hme, Hrole. run_route.
  rewrite Hb. cbv beta iota. rewrite Hp. cbv beta iota.
  mail_step w1 Hdb Hoid.
  exists w1. split; [reflexivity|].
  split; [rewrite Hdb | rewrite Hoid]; reflexivity.
Qed.

Lemma approve_commits_nothing_without_owner_session env now sess booking_id w :
  s_user_email sess = None \/ role_is "owner" sess = false ->
  owner_approve_request env now sess booking_id w = (Val (mkResponse [] Login), w).
Proof.
  unfold owner_approve_request.
  intros [H|H]; [now rewrite H|].
  rewrite H. now destruct (s_user_email sess).
Qed.

Lemma approve_invalid_id env now sess me s w :
  is_owner_session me sess ->
  owner_approve_request env now sess (BadStr s) w = (Raised (InvalidId s), w).
Proof.
  intros [Hme Hrole]. unfold owner_approve_request. now rewrite Hme, Hrole.
Qed.

Lemma approve_not_found env now sess me bid w :
  is_owner_session me sess ->
  booking_with bid w = None ->
  owner_approve_request env now sess (OidStr bid) w
    = (Val (mkResponse [("Booking not found.", "danger")] OwnerDashboard), w).
Proof.
  unfold booking_with. intros [Hme Hrole] Hb.
  unfold owner_approve_request. rewrite Hme, Hrole. run_route.
  now rewrite Hb.
Qed.

Lemma approve_not_authorized env now sess me bid b w :
  is_owner_session me sess ->
  booking_with bid w = Some b ->
  owned_property me (b_property_id b) w = None ->
  owner_approve_request env now sess (OidStr bid) w
    = (Val (not_authorized "approve"), w).
Proof.
  unfold booking_with, owned_property. intros [Hme Hrole] Hb Hp.
  unfold owner_approve_request. rewrite Hme, Hrole. run_route.
  rewrite Hb. cbv beta iota. now rewrite Hp.
Qed.

Lemma approve_already_booked env now sess me bid b p c w :
  is_owner_session me sess ->
  booking_with bid w = Some b ->
  owned_property me (b_property_id b) w = Some p ->
  approved_booking (b_property_id b) w = Some c ->
  owner_approve_request env now sess (OidStr bid) w
    = (Val (already_booked (b_property_id b)), w).
Proof.
  unfold booking_with, owned_property, approved_booking.
  intros [Hme Hrole] Hb Hp Ha.
  unfold owner_approve_request. rewrite Hme, Hrole. run_route.
  rewrite Hb. cbv beta iota. rewrite Hp. cbv beta iota. now rewrite Ha.
Qed.

Lemma reject_commits_nothing_without_owner_session env now sess booking_id w :
  s_user_email sess = None \/ role_is "owner" sess = false ->
  owner_reject_request env now sess booking_id w = (Val (mkResponse [] Login), w).
Proof.
  unfold owner_reject_request.
  intros [H|H]; [now rewrite H|].
  rewrite H. now destruct (s_user_email sess).
Qed.

Lemma reject_invalid_id env now sess me s w :
  is_owner_session me sess ->
  owner_reject_request env now sess (BadStr s) w = (Raised (InvalidId s), w).
Proof.
  intros [Hme Hrole]. unfold owner_reject_request. now rewrite Hme, Hrole.
Qed.

Lemma reject_not_found env now sess me bid w :
  is_owner_session me sess ->
  booking_with bid w = None ->
  owner_reject_request env now sess (OidStr bid) w
    = (Val (mkResponse [("Booking not found.", "danger")] OwnerDashboard), w).
Proof.
  unfold booking_with. intros [Hme Hrole] Hb.
  unfold owner_reject_request. rewrite Hme, Hrole. run_route.
  now rewrite Hb.
Qed.

Lemma reject_not_authorized env now sess me bid b w :
  is_owner_session me sess ->
  booking_with bid w = Some b ->
  owned_property me (b_property_id b) w = None ->
  owner_reject_request env now sess (OidStr bid) w
    = (Val (not_authorized "reject"), w).
Proof.
  unfold booking_with, owned_property. intros [Hme Hrole] Hb Hp.
  unfold owner_reject_request. rewrite Hme, Hrole. run_route.
  rewrite Hb. cbv beta iota. now rewrite Hp.
Qed.

(** Every session is an owner session or is sent to the login page. *)
Lemma owner_session_dec (sess : session) :
  (exists me, is_owner_session me sess)
  \/ s_user_email sess = None \/ role_is "owner" sess = false.
Proof.
  unfold is_owner_session.
  destruct (s_user_email sess) as [me|]; [|now right; left].
  destruct (role_is "owner" sess); [left; now exists me | now right; right].
Qed.

Lemma tenant_session_dec (sess : session) :
  (exists me, is_tenant_session me sess)
  \/ s_user_email sess = None \/ role_is "tenant" sess = false.
Proof.
  unfold is_tenant_session.
  destruct (s_user_email sess) as [me|]; [|now right; left].
  destruct (role_is "tenant" sess); [left; now exists me | now right; right].
Qed.

(** An approval either commits as [approval] describes or changes nothing. *)
Lemma approve_cases env now sess booking_id w :
  let r := owner_approve_request env now sess booking_id w in
  (snd r = w /\ forall pid, fst r <> Val (approved_ok pid))
  \/ (exists me bid b p,
        is_owner_session me sess /\ booking_id = OidStr bid
        /\ booking_with bid w = Some b
        /\ owned_property me (b_property_id b) w = Some p
        /\ approved_booking (b_property_id b) w = None
        /\ fst r = Val (approved_ok (b_property_id b))
        /\ approval me now b p w (snd r)).
Proof.
  intros r. subst r.
  destruct (owner_session_dec sess) as [[me Hs]|Hs].
  2:{ left. rewrite approve_commits_nothing_without_owner_session by exact Hs.
      split; [reflexivity | intros pid; discriminate]. }
  destruct booking_id as [bid|s].
  2:{ left. rewrite (approve_invalid_id env now sess me s w Hs).
      split; [reflexivity | intros pid; discriminate]. }
  destruct (booking_with bid w) as [b|] eqn:Hb.
  2:{ left. rewrite (approve_not_found env now sess me bid w Hs Hb).
      split; [reflexivity | intros pid; discriminate]. }
  destruct (owned_property me (b_property_id b) w) as [p|] eqn:Hp.
  2:{ left. rewrite (approve_not_authorized env now sess me bid b w Hs Hb Hp).
      split; [reflexivity | intros pid; discriminate]. }
  destruct (approved_booking (b_property_id b) w) as [c|] eqn:Ha.
  { left. rewrite (approve_already_booked env now sess me bid b p c w Hs Hb Hp Ha).
    split; [reflexivity | intros pid; discriminate]. }
  right. exists me, bid, b, p.
  destruct (approve_commits env now sess me bid b p w Hs Hb Hp Ha) as (w' & E & Hc).
  rewrite E. auto 10.
Qed.

(** A rejection either commits as [rejection] describes or changes nothing. *)
Lemma reject_cases env now sess booking_id w :
  let r := owner_reject_request env now sess booking_id w in
  (snd r = w /\ forall pid, fst r <> Val (rejected_ok pid))
  \/ (exists me bid b p,
        is_owner_session me sess /\ booking_id = OidStr bid
        /\ booking_with bid w = Some b
        /\ owned_property me (b_property_id b) w = Some p
        /\ fst r = Val (rejected_ok (b_property_id b))
        /\ rejection me now b p w (snd r)).
Proof.
  intros r. subst r.
  destruct (owner_session_dec sess) as [[me Hs]|Hs].
  2:{ left. rewrite reject_commits_nothing_without_owner_session by exact Hs.
      split; [reflexivity | intros pid; discriminate]. }
  destruct booking_id as [bid|s].
  2:{ left. rewrite (reject_invalid_id env now sess me s w Hs).
      split; [reflexivity | intros pid; discriminate]. }
  destruct (booking_with bid w) as [b|] eqn:Hb.
  2:{ left. rewrite (reject_not_found env now sess me bid w Hs Hb).
      split; [reflexivity | intros pid; discriminate]. }
  destruct (owned_property me (b_property_id b) w) as [p|] eqn:Hp.
  2:{ left. rewrite (reject_not_authorized env now sess me bid b w Hs Hb Hp).
      split; [reflexivity | intros pid; discriminate]. }
  right. exists me, bid, b, p.
  destruct (reject_commits env now sess me bid b p w Hs Hb Hp) as (w' & E & Hc).
  rewrite E. auto 10.
Qed.

Lemma book_commits_nothing_without_tenant_session env t1 t2 sess property_id w :
  s_user_email sess = None \/ role_is "tenant" sess = false ->
  book_property env t1 t2 sess property_id w = (Val (mkResponse [] Login), w).
Proof.
  unfold book_property.
  intros [H|H]; [now rewrite H|].
  rewrite H. now destruct (s_user_email sess).
Qed.

Lemma book_invalid_id env t1 t2 sess me s w :
  is_tenant_session me sess ->
  book_property env t1 t2 sess (BadStr s) w = (Val property_not_found, w).
Proof.
  intros [Hme Hrole]. unfold book_property. rewrite Hme, Hrole.
  unfold try_except at 1. reflexivity.
Qed.

Lemma book_not_found env t1 t2 sess me pid w :
  is_tenant_session me sess ->
  property_with pid w = None ->
  book_property env t1 t2 sess (OidStr pid) w = (Val property_not_found, w).
Proof.
  unfold property_with. intros [Hme Hrole] Hp.
  unfold book_property. rewrite Hme, Hrole.
  unfold try_except at 1. run_route. now rewrite Hp.
Qed.

Lemma book_commits env t1 t2 sess me pid prop w :
  is_tenant_session me sess ->
  property_with pid w = Some prop ->
  exists w',
    book_property env t1 t2 sess (OidStr pid) w
      = (Val (request_sent (OidStr pid)), w')
    /\ request me t1 t2 prop w w'.
Proof.
  unfold property_with. intros [Hme Hrole] Hp.
  assert (p_id prop = pid) as Hid.
  { apply find_one_In in Hp. now apply Nat.eqb_eq. }
  unfold book_property. rewrite Hme, Hrole.
  unfold try_except at 1. run_route. rewrite Hp. cbv beta iota.
  cbn [w_db w_next_oid users_col with_bookings with_notifications].
  unfold request, tenant_name_of. rewrite Hid.
  destruct (find_one (fun u => u_email u =? p_owner_email prop) _) as [o|].
  - destruct (u_email o =? ""); cbv beta iota.
    + eexists. split; [reflexivity|]. now split.
    + mail_step w1 Hdb Hoid. exists w1. split; [reflexivity|].
      split; [rewrite Hdb | rewrite Hoid]; reflexivity.
  - eexists. split; [reflexivity|]. now split.
Qed.

(** A booking request either commits as [request] describes or changes
    nothing. *)
Lemma book_cases env t1 t2 sess property_id w :
  let r := book_property env t1 t2 sess property_id w in
  (snd r = w /\ fst r <> Val (request_sent property_id))
  \/ (exists me pid prop,
        is_tenant_session me sess /\ property_id = OidStr pid
        /\ property_with pid w = Some prop
        /\ fst r = Val (request_sent property_id)
        /\ request me t1 t2 prop w (snd r)).
Proof.
  intros r. subst r.
  destruct (tenant_session_dec sess) as [[me Hs]|Hs].
  2:{ left. rewrite book_commits_nothing_without_tenant_session by exact Hs.
      split; [reflexivity | discriminate]. }
  destruct property_id as [pid|s].
  2:{ left. rewrite (book_invalid_id env t1 t2 sess me s w Hs).
      split; [reflexivity | discriminate]. }
  destruct (property_with pid w) as [prop|] eqn:Hp.
  2:{ left. rewrite (book_not_found env t1 t2 sess me pid w Hs Hp).
      split; [reflexivity | discriminate]. }
  right. exists me, pid, prop.
  destruct (book_commits env t1 t2 sess me pid prop w Hs Hp) as (w' & E & Hc).
  rewrite E. auto 10.
Qed.

(** ** Counting approved bookings *)

Section ApprovedCount.
Variable pid : oid.

Lemma approved_count_app (l1 l2 : list booking) :
  approved_count pid (l1 ++ l2) = approved_count pid l1 + approved_count pid l2.
Proof. unfold approved_count. now rewrite filter_app, length_app. Qed.

Lemma approved_count_one (b : booking) :
  approved_count pid [b] = if approved_for pid b then 1 else 0.
Proof. unfold approved_count. simpl. now destruct (approved_for pid b). Qed.

Lemma approved_count_none (bs : list booking) :
  find_one (approved_for pid) bs = None -> approved_count pid bs = 0.
Proof.
  unfold approved_count, find_one.
  induction bs as [|b bs IH]; simpl; [reflexivity|].
  destruct (approved_for pid b); [discriminate | exact IH].
Qed.

Lemma approved_count_some (bs : list booking) :
  1 <= approved_count pid bs ->
  exists c, find_one (approved_for pid) bs = Some c.
Proof.
  intros H. destruct (find_one (approved_for pid) bs) as [c|] eqn:E.
  - now exists c.
  - apply approved_count_none in E. lia.
Qed.

Lemma approved_count_snoc_pending (b : booking) (bs : list booking) :
  b_status b = PENDING ->
  approved_count pid (bs ++ [b]) = approved_count pid bs.
Proof.
  intros Hb.
  rewrite approved_count_app, approved_count_one.
  unfold approved_for. rewrite Hb, andb_false_r. lia.
Qed.

(** Rewriting documents into ones that are not APPROVED cannot add any. *)
Lemma approved_count_update_many_rejected (q : booking -> bool)
    (bs : list booking) :
  approved_count pid (update_many q (set_status REJECTED) bs)
  <= approved_count pid bs.
Proof.
  unfold approved_count, update_many.
  induction bs as [|b bs IH]; simpl; [lia|].
  destruct (q b).
  - unfold approved_for at 1. cbn [set_status b_status b_property_id status_eqb].
    rewrite andb_false_r. destruct (approved_for pid b); simpl; lia.
  - destruct (approved_for pid b); simpl; lia.
Qed.

Lemma approved_count_update_one_rejected (q : booking -> bool)
    (bs : list booking) :
  approved_count pid (update_one q (set_status REJECTED) bs)
  <= approved_count pid bs.
Proof.
  unfold approved_count.
  induction bs as [|b bs IH]; simpl; [lia|].
  destruct (q b); simpl.
  - unfold approved_for at 1. cbn [set_status b_status b_property_id status_eqb].
    rewrite andb_false_r. destruct (approved_for pid b); simpl; lia.
  - destruct (approved_for pid b); simpl; lia.
Qed.

(** Approving the document [find_one] returns adds at most one APPROVED
    booking, and only to that document's property. *)
Lemma approved_count_update_one_approved (q : booking -> bool)
    (bs : list booking) (b : booking) :
  find_one q bs = Some b ->
  approved_count pid (update_one q (set_status APPROVED) bs)
  <= approved_count pid bs + (if (b_property_id b =? pid)%nat then 1 else 0).
Proof.
  intros Hb.
  destruct (update_one_split (set_status APPROVED) q bs Hb)
    as (l1 & l2 & -> & ->).
  change (b :: l2) with ([b] ++ l2).
  change (set_status APPROVED b :: l2) with ([set_status APPROVED b] ++ l2).
  rewrite !approved_count_app, !approved_count_one.
  unfold approved_for at 1. cbn [set_status b_status b_property_id status_eqb].
  rewrite andb_true_r.
  destruct (b_property_id b =? pid)%nat; destruct (approved_for pid b); lia.
Qed.
End ApprovedCount.

(** One call keeps "at most one APPROVED booking" for every property. *)
Lemma exclusivity_step (pid : oid) (c : call) (w : world) :
  approved_count pid (bookings_col (w_db w)) <= 1 ->
  approved_count pid (bookings_col (w_db (exec c w))) <= 1.
Proof.
  intros H. destruct c as [env t1 t2 sess prid | env t sess bid | env t sess bid];
    cbn [exec].
  - destruct (book_cases env t1 t2 sess prid w)
      as [[-> _] | (me & p & prop & _ & _ & _ & _ & Hdb & _)]; [exact H|].
    rewrite Hdb. cbn [bookings_col].
    now rewrite approved_count_snoc_pending.
  - destruct (approve_cases env t sess bid w)
      as [[-> _] | (me & k & b & p & _ & _ & Hb & _ & Ha & _ & Hdb & _)];
      [exact H|].
    rewrite Hdb. cbn [bookings_col].
    etransitivity; [apply approved_count_update_many_rejected|].
    etransitivity;
      [apply (approved_count_update_one_approved pid _ _ b)|].
    + unfold booking_with in Hb. pose proof Hb as Hb'.
      apply find_one_In in Hb'. destruct Hb' as [_ Hk].
      apply Nat.eqb_eq in Hk. rewrite Hk. exact Hb.
    + destruct (b_property_id b =? pid)%nat eqn:E; [|lia].
      apply Nat.eqb_eq in E. subst pid.
      apply approved_count_none in Ha. lia.
  - destruct (reject_cases env t sess bid w)
      as [[-> _] | (me & k & b & p & _ & _ & _ & _ & _ & Hdb & _)]; [exact H|].
    rewrite Hdb. cbn [bookings_col].
    etransitivity; [apply approved_count_update_one_rejected | exact H].
Qed.

Lemma exclusivity_run (pid : oid) (cs : list call) (w : world) :
  approved_count pid (bookings_col (w_db w)) <= 1 ->
  approved_count pid (bookings_col (w_db (exec_all cs w))) <= 1.
Proof.
  unfold exec_all. revert w.
  induction cs as [|c cs IH]; intros w H; simpl; [exact H|].
  apply IH. now apply exclusivity_step.
Qed.

(** ** Reading a booking's status after a decision *)

Lemma set_status_id (s : status) (b : booking) : b_id (set_status s b) = b_id b.
Proof. reflexivity. Qed.

Lemma booking_with_id (bid : oid) (w : world) (b : booking) :
  booking_with bid w = Some b -> b_id b = bid.
Proof.
  unfold booking_with. intros H. apply find_one_In in H.
  now apply Nat.eqb_eq.
Qed.

Lemma status_of_booking (bid : oid) (w : world) (b : booking) :
  booking_with bid w = Some b -> status_of bid w = Some (b_status b).
Proof. unfold status_of, booking_with. now intros ->. Qed.

(** After a rejection the rejected id reads REJECTED and every other id
    reads as before. *)
Lemma status_after_rejection me now b p w w' (cid : oid) :
  rejection me now b p w w' ->
  status_of cid w' =
    if (b_id b =? cid)%nat then option_map (fun _ => REJECTED) (status_of cid w)
    else status_of cid w.
Proof.
  intros [Hdb _]. unfold status_of. rewrite Hdb. cbn [bookings_col].
  destruct (b_id b =? cid)%nat eqn:E.
  - apply Nat.eqb_eq in E. subst cid.
    rewrite (find_update_one_same b_id (set_status REJECTED) (set_status_id REJECTED)).
    now destruct (find_one _ _).
  - apply Nat.eqb_neq in E.
    now rewrite (find_update_one_other b_id (set_status REJECTED)
                   (set_status_id REJECTED) _ E).
Qed.

(** After an approval the approved id reads APPROVED; any other id reads
    REJECTED if it was a PENDING booking of the same property, and as
    before otherwise. *)
Lemma status_after_approval me now b p w w' (cid : oid) :
  approval me now b p w w' ->
  status_of cid w' =
    if (b_id b =? cid)%nat then option_map (fun _ => APPROVED) (status_of cid w)
    else option_map
           (fun c => if (b_property_id c =? b_property_id b)%nat
                        && status_eqb (b_status c) PENDING
                     then REJECTED else b_status c)
           (booking_with cid w).
Proof.
  intros [Hdb _]. unfold status_of, booking_with. rewrite Hdb. cbn [bookings_col].
  rewrite (find_update_many b_id (set_status REJECTED) (set_status_id REJECTED)).
  destruct (b_id b =? cid)%nat eqn:E.
  - apply Nat.eqb_eq in E. subst cid.
    rewrite (find_update_one_same b_id (set_status APPROVED) (set_status_id APPROVED)).
    destruct (find_one _ _) as [c|]; [|reflexivity]. cbn [option_map].
    unfold other_pending. cbn [set_status b_status b_property_id b_id status_eqb].
    now rewrite andb_false_r.
  - apply Nat.eqb_neq in E.
    rewrite (find_update_one_other b_id (set_status APPROVED)
               (set_status_id APPROVED) _ E).
    destruct (find_one _ _) as [c|] eqn:Hc; [|reflexivity]. cbn [option_map].
    apply find_one_In in Hc. destruct Hc as [_ Hc]. apply Nat.eqb_eq in Hc.
    unfold other_pending.
    assert ((b_id c =? b_id b)%nat = false) as ->
      by (apply Nat.eqb_neq; congruence).
    rewrite andb_true_r.
    now destruct (_ && _).
Qed.

(** The exclusivity check found nothing, so no booking of the property is
    APPROVED, the target included. *)
Lemma not_approved_when_check_passes (w : world) (b c : booking) :
  approved_booking (b_property_id b) w = None ->
  In c (bookings_col (w_db w)) ->
  b_property_id c = b_property_id b ->
  b_status c <> APPROVED.
Proof.
  unfold approved_booking. intros Ha Hin Hp Hs.
  apply (proj1 (find_one_none _ _)) with (d := c) in Ha; [|exact Hin].
  unfold approved_for in Ha. now rewrite Hp, Nat.eqb_refl, Hs in Ha.
Qed.

Lemma booking_with_In (bid : oid) (w : world) (b : booking) :
  booking_with bid w = Some b -> In b (bookings_col (w_db w)).
Proof. unfold booking_with. intros H. now apply find_one_In in H. Qed.

(** ** The property collection under the routes *)

Lemma listing_fields_update_one (q : property -> bool) (flag : bool)
    (who : string) (ps : list property) :
  map listing_fields (update_one q (set_booked flag who) ps)
  = map listing_fields ps.
Proof.
  induction ps as [|p ps IH]; simpl; [reflexivity|].
  destruct (q p); simpl; [reflexivity | now rewrite IH].
Qed.

(** ** The booking lifecycle: exclusivity and status transitions *)

(** C1. Invariant I1: starting from a store with no APPROVED booking for a
    property, after any sequence of booking requests, approvals and
    rejections, with any callers and arguments, at most one booking of
    that property is APPROVED. In particular, once the property has its
    APPROVED booking, an approval of any booking of that property changes
    nothing, and tells the property's owner that it is already booked. *)
Theorem exclusivity (pid : oid) (cs : list call) (w : world) :
  approved_count pid (bookings_col (w_db w)) = 0 ->
  approved_count pid (bookings_col (w_db (exec_all cs w))) <= 1
  /\ (forall env now sess bid b,
        booking_with bid (exec_all cs w) = Some b ->
        b_property_id b = pid ->
        approved_count pid (bookings_col (w_db (exec_all cs w))) = 1 ->
        snd (owner_approve_request env now sess (OidStr bid) (exec_all cs w))
          = exec_all cs w
        /\ (forall me p,
              is_owner_session me sess ->
              owned_property me pid (exec_all cs w) = Some p ->
              fst (owner_approve_request env now sess (OidStr bid) (exec_all cs w))
                = Val (already_booked pid))).
Proof.
  intros H0. split.
  - apply exclusivity_run. lia.
  - generalize (exec_all cs w). clear w H0. intros w env now sess bid b Hb Hp H1.
    destruct (approved_count_some pid (bookings_col (w_db w))) as [c Hc]; [lia|].
    subst pid. split.
    + destruct (approve_cases env now sess (OidStr bid) w)
        as [[E _] | (me & k & b' & p & _ & [= <-] & Hb' & _ & Ha & _)];
        [exact E|].
      unfold approved_booking in Ha. congruence.
    + intros me p Hs Ho.
      now rewrite (approve_already_booked env now sess me bid b p c w Hs Hb Ho Hc).
Qed.

Lemma exclusivity_witness :
  approved_count 1
    (bookings_col (w_db (exec_all Scenario.afternoon Scenario.listed))) <= 1.
Proof.
  exact (proj1 (exclusivity 1 Scenario.afternoon Scenario.listed eq_refl)).
Defined.

(** C2, as stated: a booking that is APPROVED or REJECTED keeps its status
    under every later approval or rejection. The routes do not check the
    current status: Tara's APPROVED booking is REJECTED by a later
    rejection, and her REJECTED booking is APPROVED by a later approval. *)
Lemma terminal_status_is_overwritten :
  (status_of 10 Scenario.tara_approved = Some APPROVED
   /\ terminal APPROVED
   /\ status_of 10 (snd (owner_reject_request Scenario.no_smtp 130 Scenario.olga
                           (OidStr 10) Scenario.tara_approved))
      = Some REJECTED)
  /\ (status_of 10 Scenario.tara_rejected = Some REJECTED
      /\ terminal REJECTED
      /\ status_of 10 (snd (owner_approve_request Scenario.no_smtp 130
                              Scenario.olga (OidStr 10) Scenario.tara_rejected))
         = Some APPROVED).
Proof.
  unfold terminal. repeat split; auto; vm_compute; reflexivity.
Qed.

(** C2, amended. A booking in a terminal state keeps its status under an
    approval or a rejection, with two exceptions, both on the booking the
    call names: an approval turns a REJECTED booking into APPROVED, and a
    rejection turns an APPROVED booking into REJECTED. So an APPROVED
    booking is never changed by an approval, a REJECTED one never by a
    rejection, and no call changes a terminal booking other than its
    target. *)
Theorem terminal_status_transitions env now sess booking_id w cid s :
  status_of cid w = Some s ->
  terminal s ->
  (status_of cid (snd (owner_approve_request env now sess booking_id w)) = Some s
   \/ (s = REJECTED /\ booking_id = OidStr cid
       /\ status_of cid (snd (owner_approve_request env now sess booking_id w))
          = Some APPROVED))
  /\ (status_of cid (snd (owner_reject_request env now sess booking_id w)) = Some s
      \/ (s = APPROVED /\ booking_id = OidStr cid
          /\ status_of cid (snd (owner_reject_request env now sess booking_id w))
             = Some REJECTED)).
Proof.
  intros Hs Ht. split.
  - destruct (approve_cases env now sess booking_id w)
      as [[-> _] | (me & bid & b & p & _ & -> & Hb & _ & Ha & _ & Hc)];
      [now left|].
    rewrite (status_after_approval me now b p w _ cid Hc).
    pose proof (booking_with_id bid w b Hb) as Hid.
    destruct (b_id b =? cid)%nat eqn:E.
    + apply Nat.eqb_eq in E. assert (bid = cid) as -> by congruence.
      rewrite Hs. cbn [option_map].
      rewrite (status_of_booking cid w b Hb) in Hs. injection Hs as Hs.
      destruct Ht as [-> | ->].
      * exfalso.
        now apply (not_approved_when_check_passes w b b Ha
                     (booking_with_In cid w b Hb) eq_refl).
      * right. auto.
    + left. unfold status_of in Hs. fold (booking_with cid w) in Hs.
      destruct (booking_with cid w) as [c|] eqn:Hc'; [|discriminate].
      cbn [option_map] in *. injection Hs as Hs.
      destruct Ht as [-> | ->]; rewrite Hs; cbn [status_eqb];
        now rewrite andb_false_r.
  - destruct (reject_cases env now sess booking_id w)
      as [[-> _] | (me & bid & b & p & _ & -> & Hb & _ & _ & Hc)];
      [now left|].
    rewrite (status_after_rejection me now b p w _ cid Hc).
    pose proof (booking_with_id bid w b Hb) as Hid.
    destruct (b_id b =? cid)%nat eqn:E; [|now left].
    apply Nat.eqb_eq in E. assert (bid = cid) as -> by congruence.
    rewrite Hs. cbn [option_map].
    destruct Ht as [-> | ->]; [right | left]; auto.
Qed.

Lemma terminal_status_transitions_witness :
  (status_of 10 (snd (owner_approve_request Scenario.smtp_down 130 Scenario.olga
                        (OidStr 10) Scenario.tara_approved)) = Some APPROVED
   \/ (APPROVED = REJECTED /\ OidStr 10 = OidStr 10
       /\ status_of 10 (snd (owner_approve_request Scenario.smtp_down 130
                               Scenario.olga (OidStr 10) Scenario.tara_approved))
          = Some APPROVED))
  /\ (status_of 10 (snd (owner_reject_request Scenario.smtp_down 130 Scenario.olga
                           (OidStr 10) Scenario.tara_approved)) = Some APPROVED
      \/ (APPROVED = APPROVED /\ OidStr 10 = OidStr 10
          /\ status_of 10 (snd (owner_reject_request Scenario.smtp_down 130
                                  Scenario.olga (OidStr 10) Scenario.tara_approved))
             = Some REJECTED)).
Proof.
  exact (terminal_status_transitions Scenario.smtp_down 130 Scenario.olga
           (OidStr 10) Scenario.tara_approved 10 APPROVED eq_refl
           (or_introl eq_refl)).
Defined.

(** ** Approval: refusals and effects *)

(** C3, as stated: the owner's approval is refused as "already booked"
    exactly when a booking other than the one being approved is APPROVED
    for the property. The check looks for any APPROVED booking of the
    property: approving Tara's booking a second time is refused although
    no other booking of the flat is APPROVED. *)
Lemma already_booked_by_the_booking_itself :
  is_owner_session Scenario.owner_email Scenario.olga
  /\ booking_with 10 Scenario.tara_approved <> None
  /\ owner_approve_request Scenario.no_smtp 130 Scenario.olga (OidStr 10)
       Scenario.tara_approved
     = (Val (already_booked 1), Scenario.tara_approved)
  /\ ~ (exists c, In c (bookings_col (w_db Scenario.tara_approved))
                  /\ b_id c <> 10 /\ b_property_id c = 1
                  /\ b_status c = APPROVED).
Proof.
  split; [|split; [|split]].
  - split; reflexivity.
  - vm_compute. discriminate.
  - vm_compute. reflexivity.
  - intros (c & Hin & Hne & _ & Hst). vm_compute in Hin.
    destruct Hin as [<- | [<- | []]].
    + now apply Hne.
    + discriminate Hst.
Qed.

(** C3, amended. Called by the property's owner on an existing booking,
    the approval is refused as "already booked" exactly when some booking
    of that property, the named one included, is APPROVED; a refused
    approval leaves the whole world as it was: no booking status, no
    property flag and no notification is written. *)
Theorem already_booked_iff env now sess me bid b p w :
  is_owner_session me sess ->
  booking_with bid w = Some b ->
  owned_property me (b_property_id b) w = Some p ->
  (fst (owner_approve_request env now sess (OidStr bid) w)
     = Val (already_booked (b_property_id b))
   <-> exists c, In c (bookings_col (w_db w))
                 /\ b_property_id c = b_property_id b
                 /\ b_status c = APPROVED)
  /\ (fst (owner_approve_request env now sess (OidStr bid) w)
        = Val (already_booked (b_property_id b))
      -> snd (owner_approve_request env now sess (OidStr bid) w) = w).
Proof.
  intros Hs Hb Hp.
  destruct (approved_booking (b_property_id b) w) as [c|] eqn:Ha.
  - rewrite (approve_already_booked env now sess me bid b p c w Hs Hb Hp Ha).
    split; [|reflexivity]. split; [intros _|reflexivity].
    unfold approved_booking in Ha. apply find_one_In in Ha.
    destruct Ha as [Hin Hq]. unfold approved_for in Hq.
    apply andb_prop in Hq. destruct Hq as [Hq1 Hq2].
    apply Nat.eqb_eq in Hq1. exists c. repeat split; auto.
    now destruct (b_status c).
  - destruct (approve_commits env now sess me bid b p w Hs Hb Hp Ha)
      as (w' & E & _).
    rewrite E. cbn [fst snd]. split; [|discriminate].
    split; [discriminate|]. intros (c & Hin & Hpc & Hst). exfalso.
    now apply (not_approved_when_check_passes w b c Ha Hin Hpc).
Qed.

Lemma already_booked_iff_witness :
  (fst (owner_approve_request Scenario.smtp_up 130 Scenario.olga (OidStr 12)
          Scenario.tara_approved)
     = Val (already_booked 1)
   <-> exists c, In c (bookings_col (w_db Scenario.tara_approved))
                 /\ b_property_id c = 1 /\ b_status c = APPROVED)
  /\ (fst (owner_approve_request Scenario.smtp_up 130 Scenario.olga (OidStr 12)
             Scenario.tara_approved)
        = Val (already_booked 1)
      -> snd (owner_approve_request Scenario.smtp_up 130 Scenario.olga (OidStr 12)
                Scenario.tara_approved)
         = Scenario.tara_approved).
Proof.
  exact (already_booked_iff Scenario.smtp_up 130 Scenario.olga
           Scenario.owner_email 12
           (mkBooking 12 1 Scenario.tenant2_email "Tom" 110 REJECTED)
           (set_booked true Scenario.tenant1_email Scenario.flat)
           Scenario.tara_approved
           (conj eq_refl eq_refl) eq_refl eq_refl).
Defined.

(** C4, as stated: after a successful approval every booking of the
    property that was already in a terminal state keeps its status. The
    approved booking itself may have been REJECTED: Olga rejects Tara's
    request and then approves it, and the approval succeeds and turns the
    REJECTED booking into an APPROVED one. *)
Lemma approval_revives_a_rejected_booking :
  fst (owner_approve_request Scenario.no_smtp 130 Scenario.olga (OidStr 10)
         Scenario.tara_rejected)
    = Val (approved_ok 1)
  /\ booking_with 10 Scenario.tara_rejected
     = Some (mkBooking 10 1 Scenario.tenant1_email "Tara" 100 REJECTED)
  /\ terminal REJECTED
  /\ status_of 10 (snd (owner_approve_request Scenario.no_smtp 130 Scenario.olga
                          (OidStr 10) Scenario.tara_rejected))
     = Some APPROVED.
Proof.
  unfold terminal. repeat split; auto; vm_compute; reflexivity.
Qed.

(** C4, amended. After a successful approval of booking [bid], that
    booking is APPROVED, whatever its status was; every other booking of
    the same property that was PENDING is REJECTED; and every other
    booking of the property that was in a terminal state keeps its
    status. *)
Theorem approval_effect env now sess booking_id pid w :
  fst (owner_approve_request env now sess booking_id w) = Val (approved_ok pid) ->
  exists bid b,
    booking_id = OidStr bid
    /\ booking_with bid w = Some b
    /\ b_property_id b = pid
    /\ status_of bid (snd (owner_approve_request env now sess booking_id w))
       = Some APPROVED
    /\ forall cid c,
         cid <> bid ->
         booking_with cid w = Some c ->
         b_property_id c = pid ->
         (b_status c = PENDING ->
          status_of cid (snd (owner_approve_request env now sess booking_id w))
            = Some REJECTED)
         /\ (terminal (b_status c) ->
             status_of cid (snd (owner_approve_request env now sess booking_id w))
               = Some (b_status c)).
Proof.
  intros Hok.
  destruct (approve_cases env now sess booking_id w)
    as [[_ Hno] | (me & bid & b & p & _ & -> & Hb & _ & _ & Hr & Hc)];
    [now elim (Hno pid)|].
  rewrite Hr in Hok. injection Hok as Hpid.
  pose proof (booking_with_id bid w b Hb) as Hid.
  exists bid, b.
  split; [reflexivity|]. split; [exact Hb|]. split; [exact Hpid|]. split.
  - rewrite (status_after_approval me now b p w _ bid Hc).
    rewrite Hid, Nat.eqb_refl, (status_of_booking bid w b Hb). reflexivity.
  - intros cid c Hne Hc' Hpc.
    rewrite (status_after_approval me now b p w _ cid Hc).
    assert ((b_id b =? cid)%nat = false) as ->
      by (apply Nat.eqb_neq; congruence).
    rewrite Hc'. cbn [option_map].
    assert ((b_property_id c =? b_property_id b)%nat = true) as ->
      by (apply Nat.eqb_eq; congruence).
    split.
    + now intros ->.
    + intros [-> | ->]; reflexivity.
Qed.

Lemma approval_effect_witness :
  exists bid b,
    OidStr 10 = OidStr bid
    /\ booking_with bid Scenario.two_requests = Some b
    /\ b_property_id b = 1
    /\ status_of bid (snd (owner_approve_request Scenario.smtp_up 120
                             Scenario.olga (OidStr 10) Scenario.two_requests))
       = Some APPROVED
    /\ forall cid c,
         cid <> bid ->
         booking_with cid Scenario.two_requests = Some c ->
         b_property_id c = 1 ->
         (b_status c = PENDING ->
          status_of cid (snd (owner_approve_request Scenario.smtp_up 120
                                Scenario.olga (OidStr 10) Scenario.two_requests))
            = Some REJECTED)
         /\ (terminal (b_status c) ->
             status_of cid (snd (owner_approve_request Scenario.smtp_up 120
                                   Scenario.olga (OidStr 10) Scenario.two_requests))
               = Some (b_status c)).
Proof.
  exact (approval_effect Scenario.smtp_up 120 Scenario.olga (OidStr 10) 1
           Scenario.two_requests eq_refl).
Defined.

(** ** Authorization *)

Lemma not_owned (me : string) (pid : oid) (w : world) :
  (forall p, In p (props_col (w_db w)) -> p_id p = pid -> p_owner_email p <> me) ->
  owned_property me pid w = None.
Proof.
  intros H. unfold owned_property. apply find_one_none. intros p Hin.
  destruct (p_id p =? pid)%nat eqn:E; [|reflexivity].
  apply Nat.eqb_eq in E. cbn [andb].
  apply String.eqb_neq. now apply H.
Qed.

(** C5. When the signed-in caller does not own the property a booking
    refers to, neither the approval nor the rejection of that booking
    writes anything: bookings, properties and notifications, indeed the
    whole world, are exactly as before. Coming from an owner's session,
    both calls answer "not authorized". *)
Theorem only_the_owner_decides env now sess me bid b w :
  s_user_email sess = Some me ->
  booking_with bid w = Some b ->
  (forall p, In p (props_col (w_db w)) ->
             p_id p = b_property_id b -> p_owner_email p <> me) ->
  snd (owner_approve_request env now sess (OidStr bid) w) = w
  /\ snd (owner_reject_request env now sess (OidStr bid) w) = w
  /\ (role_is "owner" sess = true ->
      fst (owner_approve_request env now sess (OidStr bid) w)
        = Val (not_authorized "approve")
      /\ fst (owner_reject_request env now sess (OidStr bid) w)
         = Val (not_authorized "reject")).
Proof.
  intros Hme Hb Hno. apply not_owned in Hno.
  destruct (role_is "owner" sess) eqn:Hrole.
  - rewrite (approve_not_authorized env now sess me bid b w (conj Hme Hrole) Hb Hno).
    rewrite (reject_not_authorized env now sess me bid b w (conj Hme Hrole) Hb Hno).
    auto.
  - rewrite approve_commits_nothing_without_owner_session by now right.
    rewrite reject_commits_nothing_without_owner_session by now right.
    repeat split; discriminate.
Qed.

Lemma only_the_owner_decides_witness :
  snd (owner_approve_request Scenario.smtp_up 120 Scenario.oskar (OidStr 10)
         Scenario.two_requests) = Scenario.two_requests
  /\ snd (owner_reject_request Scenario.smtp_up 120 Scenario.oskar (OidStr 10)
            Scenario.two_requests) = Scenario.two_requests
  /\ fst (owner_approve_request Scenario.smtp_up 120 Scenario.oskar (OidStr 10)
            Scenario.two_requests) = Val (not_authorized "approve")
  /\ fst (owner_reject_request Scenario.smtp_up 120 Scenario.oskar (OidStr 10)
            Scenario.two_requests) = Val (not_authorized "reject").
Proof.
  assert (forall p, In p (props_col (w_db Scenario.two_requests)) ->
                    p_id p = 1 -> p_owner_email p <> Scenario.other_owner_email)
    as Hno.
  { intros p Hin _. vm_compute in Hin. destruct Hin as [<- | []].
    vm_compute. discriminate. }
  destruct (only_the_owner_decides Scenario.smtp_up 120 Scenario.oskar
              Scenario.other_owner_email 10
              (mkBooking 10 1 Scenario.tenant1_email "Tara" 100 PENDING)
              Scenario.two_requests eq_refl eq_refl Hno)
    as (Ha & Hr & Hf).
  destruct (Hf eq_refl) as [Hfa Hfr].
  repeat split; assumption.
Defined.

(** ** Notifications *)

(** C6. Every successful booking request, approval and rejection appends
    exactly one notification. For a request it carries the property
    owner's address and no tenant address; for an approval or a rejection
    it carries the address of the tenant of the decided booking and that
    booking's id. An approval therefore writes nothing for the bookings it
    rejects along the way: its one notification refers to the approved
    booking only. *)
Theorem one_notification_per_transition env sess w :
  (forall t1 t2 property_id,
     fst (book_property env t1 t2 sess property_id w)
       = Val (request_sent property_id) ->
     exists n pid prop,
       property_id = OidStr pid /\ property_with pid w = Some prop
       /\ notifications_col (w_db (snd (book_property env t1 t2 sess property_id w)))
          = notifications_col (w_db w) ++ [n]
       /\ n_owner_email n = p_owner_email prop
       /\ n_tenant_email n = None
       /\ shown_to (p_owner_email prop) n = true)
  /\ (forall now booking_id pid,
        fst (owner_approve_request env now sess booking_id w)
          = Val (approved_ok pid) ->
        exists n bid b,
          booking_id = OidStr bid /\ booking_with bid w = Some b
          /\ notifications_col
               (w_db (snd (owner_approve_request env now sess booking_id w)))
             = notifications_col (w_db w) ++ [n]
          /\ n_tenant_email n = Some (b_tenant_email b)
          /\ n_booking_id n = Some bid
          /\ shown_to (b_tenant_email b) n = true
          /\ forall c, In c (bookings_col (w_db w)) ->
                       other_pending b c = true ->
                       n_booking_id n <> Some (b_id c))
  /\ (forall now booking_id pid,
        fst (owner_reject_request env now sess booking_id w)
          = Val (rejected_ok pid) ->
        exists n bid b,
          booking_id = OidStr bid /\ booking_with bid w = Some b
          /\ notifications_col
               (w_db (snd (owner_reject_request env now sess booking_id w)))
             = notifications_col (w_db w) ++ [n]
          /\ n_tenant_email n = Some (b_tenant_email b)
          /\ n_booking_id n = Some bid
          /\ shown_to (b_tenant_email b) n = true).
Proof.
  split; [|split].
  - intros t1 t2 property_id Hok.
    destruct (book_cases env t1 t2 sess property_id w)
      as [[_ Hno] | (me & pid & prop & _ & -> & Hp & _ & Hdb & _)];
      [now elim Hno|].
    eexists _, pid, prop. rewrite Hdb. cbn [notifications_col].
    repeat split; auto.
    unfold shown_to. cbn [n_owner_email]. now rewrite String.eqb_refl.
  - intros now booking_id pid Hok.
    destruct (approve_cases env now sess booking_id w)
      as [[_ Hno] | (me & bid & b & p & _ & -> & Hb & _ & _ & _ & Hdb & _)];
      [now elim (Hno pid)|].
    pose proof (booking_with_id bid w b Hb) as Hid.
    eexists _, bid, b. rewrite Hdb. cbn [notifications_col].
    split; [reflexivity|]. split; [exact Hb|]. split; [reflexivity|].
    cbn [n_tenant_email n_booking_id]. split; [reflexivity|].
    split; [now rewrite Hid|]. split.
    + unfold shown_to. cbn [n_tenant_email].
      rewrite String.eqb_refl. apply orb_true_r.
    + intros c _ Hc [= Heq]. unfold other_pending in Hc.
      rewrite Heq, Nat.eqb_refl, andb_false_r in Hc. discriminate.
  - intros now booking_id pid Hok.
    destruct (reject_cases env now sess booking_id w)
      as [[_ Hno] | (me & bid & b & p & _ & -> & Hb & _ & _ & Hdb & _)];
      [now elim (Hno pid)|].
    pose proof (booking_with_id bid w b Hb) as Hid.
    eexists _, bid, b. rewrite Hdb. cbn [notifications_col].
    split; [reflexivity|]. split; [exact Hb|]. split; [reflexivity|].
    cbn [n_tenant_email n_booking_id]. split; [reflexivity|].
    split; [now rewrite Hid|].
    unfold shown_to. cbn [n_tenant_email].
    rewrite String.eqb_refl. apply orb_true_r.
Qed.

Lemma one_notification_per_transition_witness :
  exists n bid b,
    OidStr 10 = OidStr bid /\ booking_with bid Scenario.two_requests = Some b
    /\ notifications_col
         (w_db (snd (owner_approve_request Scenario.smtp_down 120 Scenario.olga
                       (OidStr 10) Scenario.two_requests)))
       = notifications_col (w_db Scenario.two_requests) ++ [n]
    /\ n_tenant_email n = Some (b_tenant_email b)
    /\ n_booking_id n = Some bid
    /\ shown_to (b_tenant_email b) n = true
    /\ forall c, In c (bookings_col (w_db Scenario.two_requests)) ->
                 other_pending b c = true ->
                 n_booking_id n <> Some (b_id c).
Proof.
  exact (proj1 (proj2 (one_notification_per_transition Scenario.smtp_down
                         Scenario.olga Scenario.two_requests))
           120 (OidStr 10) 1 eq_refl).
Defined.

(** ** Delivery failures *)

Lemma approve_observable env1 env2 now sess booking_id w :
  observable (owner_approve_request env1 now sess booking_id w)
  = observable (owner_approve_request env2 now sess booking_id w).
Proof.
  destruct (owner_session_dec sess) as [[me Hs]|Hs].
  2:{ now rewrite !approve_commits_nothing_without_owner_session. }
  destruct booking_id as [bid|s].
  2:{ now rewrite !(approve_invalid_id _ now sess me s w Hs). }
  destruct (booking_with bid w) as [b|] eqn:Hb.
  2:{ now rewrite !(approve_not_found _ now sess me bid w Hs Hb). }
  destruct (owned_property me (b_property_id b) w) as [p|] eqn:Hp.
  2:{ now rewrite !(approve_not_authorized _ now sess me bid b w Hs Hb Hp). }
  destruct (approved_booking (b_property_id b) w) as [c|] eqn:Ha.
  { now rewrite !(approve_already_booked _ now sess me bid b p c w Hs Hb Hp Ha). }
  destruct (approve_commits env1 now sess me bid b p w Hs Hb Hp Ha)
    as (w1 & -> & D1 & O1).
  destruct (approve_commits env2 now sess me bid b p w Hs Hb Hp Ha)
    as (w2 & -> & D2 & O2).
  unfold observable. cbn [fst snd]. now rewrite D1, D2, O1, O2.
Qed.

Lemma reject_observable env1 env2 now sess booking_id w :
  observable (owner_reject_request env1 now sess booking_id w)
  = observable (owner_reject_request env2 now sess booking_id w).
Proof.
  destruct (owner_session_dec sess) as [[me Hs]|Hs].
  2:{ now rewrite !reject_commits_nothing_without_owner_session. }
  destruct booking_id as [bid|s].
  2:{ now rewrite !(reject_invalid_id _ now sess me s w Hs). }
  destruct (booking_with bid w) as [b|] eqn:Hb.
  2:{ now rewrite !(reject_not_found _ now sess me bid w Hs Hb). }
  destruct (owned_property me (b_property_id b) w) as [p|] eqn:Hp.
  2:{ now rewrite !(reject_not_authorized _ now sess me bid b w Hs Hb Hp). }
  destruct (reject_commits env1 now sess me bid b p w Hs Hb Hp)
    as (w1 & -> & D1 & O1).
  destruct (reject_commits env2 now sess me bid b p w Hs Hb Hp)
    as (w2 & -> & D2 & O2).
  unfold observable. cbn [fst snd]. now rewrite D1, D2, O1, O2.
Qed.

Lemma book_observable env1 env2 t1 t2 sess property_id w :
  observable (book_property env1 t1 t2 sess property_id w)
  = observable (book_property env2 t1 t2 sess property_id w).
Proof.
  destruct (tenant_session_dec sess) as [[me Hs]|Hs].
  2:{ now rewrite !book_commits_nothing_without_tenant_session. }
  destruct property_id as [pid|s].
  2:{ now rewrite !(book_invalid_id _ t1 t2 sess me s w Hs). }
  destruct (property_with pid w) as [prop|] eqn:Hp.
  2:{ now rewrite !(book_not_found _ t1 t2 sess me pid w Hs Hp). }
  destruct (book_commits env1 t1 t2 sess me pid prop w Hs Hp)
    as (w1 & -> & D1 & O1).
  destruct (book_commits env2 t1 t2 sess me pid prop w Hs Hp)
    as (w2 & -> & D2 & O2).
  unfold observable. cbn [fst snd]. now rewrite D1, D2, O1, O2.
Qed.

(** C7. Whatever the mail transport does (not configured, delivering,
    raising while connecting or sending, or failing before the
    conversation starts), a booking request, an approval and a rejection
    give the caller the same response and leave the same database and the
    same ObjectId generator; a failed delivery is neither surfaced nor
    rolled back. Only the console and the outbox can differ. *)
Theorem delivery_isolation env_fails env_sends sess w :
  (forall t1 t2 property_id,
     observable (book_property env_fails t1 t2 sess property_id w)
     = observable (book_property env_sends t1 t2 sess property_id w))
  /\ (forall now booking_id,
        observable (owner_approve_request env_fails now sess booking_id w)
        = observable (owner_approve_request env_sends now sess booking_id w))
  /\ (forall now booking_id,
        observable (owner_reject_request env_fails now sess booking_id w)
        = observable (owner_reject_request env_sends now sess booking_id w)).
Proof.
  split; [|split]; intros.
  - apply book_observable.
  - apply approve_observable.
  - apply reject_observable.
Qed.

(** The transport does show on the console and in the outbox. *)
Example delivery_failure_is_logged :
  w_outbox (snd (owner_approve_request Scenario.smtp_up 120 Scenario.olga
                   (OidStr 10) Scenario.two_requests))
    <> w_outbox (snd (owner_approve_request Scenario.smtp_down 120 Scenario.olga
                        (OidStr 10) Scenario.two_requests))
  /\ In "Failed to send email: Connection refused"
        (w_stdout (snd (owner_approve_request Scenario.smtp_down 120 Scenario.olga
                          (OidStr 10) Scenario.two_requests)))
  /\ In "Email error (tenant notify approve): invalid literal for int() with base 10: 'smtp'"
        (w_stdout (snd (owner_approve_request Scenario.smtp_bad_port 120
                          Scenario.olga (OidStr 10) Scenario.two_requests))).
Proof.
  split; [|split].
  - vm_compute. discriminate.
  - vm_compute. tauto.
  - vm_compute. tauto.
Qed.

(** ** Booking requests *)

(** C8. A booking request by a signed-in tenant for an existing property
    always succeeds and appends one booking with status PENDING, the
    property's id, the tenant's address and the current clock reading.
    Nothing is asked about APPROVED bookings, so this holds for a property
    that is already booked as well; a second request by the same tenant
    appends a second booking with an id of its own. *)
Theorem request_always_inserts env env' t1 t2 t3 t4 sess me pid prop w :
  is_tenant_session me sess ->
  property_with pid w = Some prop ->
  fst (book_property env t1 t2 sess (OidStr pid) w) = Val (request_sent (OidStr pid))
  /\ bookings_col (w_db (snd (book_property env t1 t2 sess (OidStr pid) w)))
     = bookings_col (w_db w)
       ++ [mkBooking (w_next_oid w) pid me (tenant_name_of me w) t1 PENDING]
  /\ fst (book_property env' t3 t4 sess (OidStr pid)
            (snd (book_property env t1 t2 sess (OidStr pid) w)))
     = Val (request_sent (OidStr pid))
  /\ bookings_col
       (w_db (snd (book_property env' t3 t4 sess (OidStr pid)
                     (snd (book_property env t1 t2 sess (OidStr pid) w)))))
     = bookings_col (w_db w)
       ++ [mkBooking (w_next_oid w) pid me (tenant_name_of me w) t1 PENDING;
           mkBooking (S (S (w_next_oid w))) pid me (tenant_name_of me w) t3
                     PENDING]
  /\ w_next_oid w <> S (S (w_next_oid w)).
Proof.
  intros Hs Hp.
  assert (p_id prop = pid) as Hid.
  { unfold property_with in Hp. apply find_one_In in Hp. now apply Nat.eqb_eq. }
  destruct (book_commits env t1 t2 sess me pid prop w Hs Hp)
    as (w1 & -> & D1 & O1).
  cbn [fst snd].
  assert (property_with pid w1 = Some prop) as Hp1.
  { unfold property_with. now rewrite D1. }
  assert (tenant_name_of me w1 = tenant_name_of me w) as Hn.
  { unfold tenant_name_of. now rewrite D1. }
  destruct (book_commits env' t3 t4 sess me pid prop w1 Hs Hp1)
    as (w2 & -> & D2 & O2).
  cbn [fst snd]. rewrite D2, Hn, O1, D1. cbn [bookings_col]. rewrite Hid.
  repeat split; auto.
  - now rewrite <- app_assoc.
  - lia.
Qed.

Lemma request_always_inserts_witness :
  approved_count 1 (bookings_col (w_db Scenario.tara_approved)) = 1
  /\ fst (book_property Scenario.smtp_down 200 201 Scenario.tom (OidStr 1)
            Scenario.tara_approved)
     = Val (request_sent (OidStr 1))
  /\ bookings_col (w_db (snd (book_property Scenario.smtp_down 200 201
                                Scenario.tom (OidStr 1) Scenario.tara_approved)))
     = bookings_col (w_db Scenario.tara_approved)
       ++ [mkBooking 15 1 Scenario.tenant2_email "Tom" 200 PENDING].
Proof.
  split; [reflexivity|].
  pose proof (request_always_inserts Scenario.smtp_down Scenario.no_smtp
                200 201 210 211 Scenario.tom Scenario.tenant2_email 1
                (set_booked true Scenario.tenant1_email Scenario.flat)
                Scenario.tara_approved (conj eq_refl eq_refl) eq_refl)
    as (H1 & H2 & _).
  split; [exact H1 | exact H2].
Defined.

(** ** The property collection *)

(** C9. A booking request and a rejection leave the property collection
    as it was. An approval changes it only when it succeeds, and then
    only by setting the booked flag and the booked-by address of the
    booking's property; in every case title, description, location,
    coordinates, price, rooms, owner, images, reviews and the other
    listing fields of every property are as before. *)
Theorem property_frame (c : call) (w : world) :
  map listing_fields (props_col (w_db (exec c w)))
    = map listing_fields (props_col (w_db w))
  /\ match c with
     | ApproveBooking env now sess booking_id =>
       props_col (w_db (exec c w)) = props_col (w_db w)
       \/ exists bid b,
            booking_id = OidStr bid /\ booking_with bid w = Some b
            /\ fst (owner_approve_request env now sess booking_id w)
               = Val (approved_ok (b_property_id b))
            /\ props_col (w_db (exec c w))
               = update_one (fun q => (p_id q =? b_property_id b)%nat)
                            (set_booked true (b_tenant_email b))
                            (props_col (w_db w))
     | _ => props_col (w_db (exec c w)) = props_col (w_db w)
     end.
Proof.
  destruct c as [env t1 t2 sess prid | env t sess bid | env t sess bid];
    cbn [exec].
  - destruct (book_cases env t1 t2 sess prid w)
      as [[-> _] | (me & p & prop & _ & _ & _ & _ & Hdb & _)]; [now split|].
    rewrite Hdb. now split.
  - destruct (approve_cases env t sess bid w)
      as [[-> _] | (me & k & b & p & _ & -> & Hb & _ & _ & Hr & Hdb & _)];
      [split; [reflexivity | now left]|].
    rewrite Hdb. cbn [props_col]. split.
    + apply listing_fields_update_one.
    + right. now exists k, b.
  - destruct (reject_cases env t sess bid w)
      as [[-> _] | (me & k & b & p & _ & _ & _ & _ & _ & Hdb & _)]; [now split|].
    rewrite Hdb. now split.
Qed.

(** ** Reading notifications *)

(** C10, as stated: only its recipient can change a notification's read
    flag. The route checks that somebody is signed in and nothing else:
    Tom, to whom the owner's notification 11 is not shown, marks it read. *)
Lemma anyone_signed_in_marks_read :
  find_one (fun n => (n_id n =? 11)%nat)
           (notifications_col (w_db Scenario.one_request))
    = Some (mkNotification 11 Scenario.owner_email None 1 None
              "New booking request from Tara (tara@example.com) for 'Sample Flat 101'"
              100 false)
  /\ shown_to Scenario.tenant2_email
       (mkNotification 11 Scenario.owner_email None 1 None
          "New booking request from Tara (tara@example.com) for 'Sample Flat 101'"
          100 false) = false
  /\ option_map n_read
       (find_one (fun n => (n_id n =? 11)%nat)
          (notifications_col
             (w_db (snd (mark_notification_read Scenario.tom (OidStr 11)
                           Scenario.one_request)))))
     = Some true.
Proof. repeat split; vm_compute; reflexivity. Qed.

(** C10, amended. The read flag can be set by anyone who is signed in:
    marking a notification read sets its flag to true whoever the caller
    is, and leaves its other fields, every other notification and the
    rest of the store as they were. A caller who is not signed in is sent
    to the login page and changes nothing. *)
Theorem mark_read_ignores_recipient sess nid n w :
  find_one (fun m => (n_id m =? nid)%nat) (notifications_col (w_db w)) = Some n ->
  (is_logged_in sess = false ->
   mark_notification_read sess (OidStr nid) w = (Val (mkResponse [] Login), w))
  /\ (is_logged_in sess = true ->
      fst (mark_notification_read sess (OidStr nid) w)
        = Val (mkResponse [] Notifications)
      /\ find_one (fun m => (n_id m =? nid)%nat)
           (notifications_col
              (w_db (snd (mark_notification_read sess (OidStr nid) w))))
         = Some (set_read true n)
      /\ (forall k, k <> nid ->
            find_one (fun m => (n_id m =? k)%nat)
              (notifications_col
                 (w_db (snd (mark_notification_read sess (OidStr nid) w))))
            = find_one (fun m => (n_id m =? k)%nat) (notifications_col (w_db w)))
      /\ users_col (w_db (snd (mark_notification_read sess (OidStr nid) w)))
         = users_col (w_db w)
      /\ props_col (w_db (snd (mark_notification_read sess (OidStr nid) w)))
         = props_col (w_db w)
      /\ bookings_col (w_db (snd (mark_notification_read sess (OidStr nid) w)))
         = bookings_col (w_db w)).
Proof.
  intros Hn. unfold mark_notification_read. split; intros Hl; rewrite Hl.
  - reflexivity.
  - cbn [negb]. unfold try_except. run_route.
    cbn [fst snd w_db notifications_col users_col props_col bookings_col
         with_notifications].
    repeat split.
    + rewrite (find_update_one_same n_id (set_read true) (fun _ => eq_refl)).
      now rewrite Hn.
    + intros k Hk.
      apply (find_update_one_other n_id (set_read true) (fun _ => eq_refl)).
      congruence.
Qed.

Lemma mark_read_ignores_recipient_witness :
  find_one (fun m => (n_id m =? 11)%nat)
    (notifications_col
       (w_db (snd (mark_notification_read Scenario.tom (OidStr 11)
                     Scenario.one_request))))
  = Some (mkNotification 11 Scenario.owner_email None 1 None
            "New booking request from Tara (tara@example.com) for 'Sample Flat 101'"
            100 true).
Proof.
  exact (proj1 (proj2 (proj2 (mark_read_ignores_recipient Scenario.tom 11
           (mkNotification 11 Scenario.owner_email None 1 None
              "New booking request from Tara (tara@example.com) for 'Sample Flat 101'"
              100 false)
           Scenario.one_request eq_refl) eq_refl))).
Defined.
